(** * mysqld_exporter, package collector: the innodb_trx and Aurora
      replica_host_status scrapers

    A shallow embedding of [collector/info_schema_innodb_trx.go] and of the
    Aurora host status scraper, together with the part of [context],
    [database/sql] and [prometheus] the two [Scrape] methods call.

    - Go values: [uint64] and [int64] are [Z] with their ranges written out,
      [float64] is a binary64 [spec_float], [string] and [[]byte] are
      [string], [error] is the inductive [error] ([nil] is [None]).
    - Effects: a state monad over [World] (a logical clock, the table of
      result cursors, the metric channel), with panics and fuel exhaustion
      as results.  The [for rows.Next()] loop takes fuel; every theorem
      about a run says which fuel is enough. *)

From Stdlib Require Import ZArith String Ascii Bool Lia DecimalString DecimalPos.
From Stdlib Require Import PrimFloat SpecFloat FloatOps.
From stdpp Require Import base list.

Set Warnings "-inexact-float".

Local Open Scope string_scope.
Local Open Scope list_scope.
Local Open Scope Z_scope.

(** ** Go scalars *)

(** [float64]: IEEE 754 binary64, as specified by [SpecFloat] with
    precision 53 and maximal exponent 1024. *)
Definition float64 : Type := spec_float.

(** A floating-point literal of the Go source. *)
Definition float64_lit (f : PrimFloat.float) : float64 := Prim2SF f.

(** The conversion [float64(u)] of an unsigned integer: the nearest
    binary64 value, ties to even. *)
Definition float64_of_uint64 (u : Z) : float64 :=
  binary_normalize 53 1024 u 0 false.

(** [0 <= f] as IEEE 754 compares: false on NaN, true on both zeros. *)
Definition float64_nonneg (f : float64) : bool := SFleb (S754_zero false) f.

Definition uint64_max : Z := 2 ^ 64 - 1.

Definition is_uint64 (u : Z) : Prop := 0 <= u <= uint64_max.

(** ** strconv *)

Definition digit_value (c : ascii) : option Z :=
  let n := Z.of_nat (nat_of_ascii c) in
  if (48 <=? n) && (n <=? 57) then Some (n - 48) else None.

(** The digit loop of [strconv.ParseUint(s, 10, 64)]: a character that is
    not a decimal digit is a syntax error, a value above [uint64_max] a
    range error. *)
Fixpoint parse_digits (s : string) (acc : Z) : option Z :=
  match s with
  | EmptyString => Some acc
  | String c s' =>
      match digit_value c with
      | None => None
      | Some d =>
          let acc' := acc * 10 + d in
          if acc' <=? uint64_max then parse_digits s' acc' else None
      end
  end.

(** [strconv.ParseUint(s, 10, 64)]; [None] is its error.  The empty string
    is a syntax error, and no sign prefix is accepted. *)
Definition ParseUint (s : string) : option Z :=
  match s with
  | EmptyString => None
  | _ => parse_digits s 0
  end.

(** [strconv.FormatInt(i, 10)]. *)
Definition FormatInt (i : Z) : string := NilZero.string_of_int (Z.to_int i).

(** [strconv.FormatBool]. *)
Definition FormatBool (b : bool) : string := if b then "true" else "false".

(** The two functions of [strconv] that convert between binary64 and text.
    [FormatFloat f] is [strconv.FormatFloat(f, 'g', -1, 64)] and
    [ParseFloat s] is [strconv.ParseFloat(s, 64)], [None] being its error.
    Neither is part of the repository; the development is parametric in
    them. *)
Class Strconv : Type := {
  FormatFloat : float64 -> string;
  ParseFloat : string -> option float64
}.

(** Constants of package [collector] that the two files use and that are
    declared in other files of the package. *)
Class Package : Type := {
  namespace : string;
  informationSchema : string
}.

(** ** Errors *)

(** The values of Go's [error] that can reach a scraper. *)
Inductive error : Type :=
| context_Canceled
| context_DeadlineExceeded
| driver_error (msg : string)                (* what the driver or the engine reports *)
| sql_errRowsClosed                          (* "sql: Rows are closed" *)
| sql_errScanWithoutNext                     (* "sql: Scan called without calling Next" *)
| sql_errScanArity (want got : nat)          (* "sql: expected .. destination arguments in Scan, not .." *)
| sql_errScanColumn (index : nat)            (* "sql: Scan error on column index .." *)
| runtime_nilDereference                     (* a method called on a cursor that does not exist *)
| prom_errInconsistentCardinality (want got : nat).

(** ** database/sql/driver: the values of a result row *)

(** [driver.Value].  A [time.Time] is carried by its RFC 3339 text, the
    string a conversion to [*string] stores. *)
Inductive Value : Type :=
| VNil
| VInt64 (i : Z)
| VFloat64 (f : float64)
| VBool (b : bool)
| VBytes (b : string)
| VString (s : string)
| VTime (rfc3339 : string).

(** The destinations the two scrapers pass to [Scan]. *)
Inductive Dest : Type := PtrUint64 | PtrString | PtrFloat64.

(** The Go type a destination points to. *)
Definition deref (d : Dest) : Type :=
  match d with
  | PtrUint64 => Z
  | PtrString => string
  | PtrFloat64 => float64
  end.

Section Conversion.
Context `{Strconv}.

(** [asString] of database/sql: the text a source value is parsed from. *)
Definition asString (src : Value) : string :=
  match src with
  | VNil => "<nil>"
  | VInt64 i => FormatInt i
  | VFloat64 f => FormatFloat f
  | VBool b => FormatBool b
  | VBytes b => b
  | VString s => s
  | VTime t => t
  end.

(** [convertAssign(dest, src)] of database/sql for the three destination
    types; [None] is its error.  NULL converts to none of them; a
    [float64] source is assigned to a [*float64] as it is; every other
    numeric conversion goes through the text of the source, and the text
    of a time is never a number. *)
Definition convertAssign (d : Dest) (src : Value) : option (deref d) :=
  match d return option (deref d) with
  | PtrUint64 =>
      match src with
      | VNil | VTime _ => None
      | _ => ParseUint (asString src)
      end
  | PtrString =>
      match src with
      | VNil => None
      | _ => Some (asString src)
      end
  | PtrFloat64 =>
      match src with
      | VNil | VTime _ => None
      | VFloat64 f => Some f
      | _ => ParseFloat (asString src)
      end
  end.
End Conversion.

(** ** context *)

(** A [context.Context], as far as a scraper can observe it: it is never
    done, or it is done from an instant of the logical clock on, with
    [context.Canceled] or [context.DeadlineExceeded] as its [Err()]. *)
Inductive Context : Type :=
| Background
| DoneAt (t : nat) (why : error).

(** [ctx.Err()] at instant [now]. *)
Definition ctx_Err (ctx : Context) (now : nat) : option error :=
  match ctx with
  | Background => None
  | DoneAt t why => if (t <=? now)%nat then Some why else None
  end.


(** ** database/sql: handles, cursors *)

(** What the engine answers to one query: the rows the driver delivers,
    in order, and how the stream ends ([None] is [io.EOF], [Some e] an
    error of the driver after the last row delivered). *)
Record ResultSet : Type := {
  rs_rows : list (list Value);
  rs_end : option error
}.

(** [*sql.DB]: for every query text, the error of the query or its result
    set.  A scraper only ever queries the handle. *)
Record DB : Type := {
  db_query : string -> error + ResultSet
}.

(** [*sql.Rows]: one result cursor. *)
Record Rows : Type := {
  rows_ctx : Context;                   (* the context the query ran under *)
  pending : list (list Value);          (* rows not delivered yet *)
  stream_end : option error;            (* what follows the last row *)
  lastcols : option (list Value);       (* the row the last [Next] prepared *)
  lasterr : option error;               (* [Err()]; [None] also stands for [io.EOF] *)
  closed : bool
}.

Definition open_cursor (ctx : Context) (rs : ResultSet) : Rows :=
  {| rows_ctx := ctx; pending := rs_rows rs; stream_end := rs_end rs;
     lastcols := None; lasterr := None; closed := false |}.

(** [rs.close(err)]: closing twice is a no-op; the first close records
    the error that caused it. *)
Definition rows_close (err : option error) (r : Rows) : Rows :=
  if closed r then r
  else {| rows_ctx := rows_ctx r; pending := pending r;
          stream_end := stream_end r; lastcols := lastcols r;
          lasterr := match lasterr r with Some e => Some e | None => err end;
          closed := true |}.

(** The goroutine [awaitDone] of an open cursor: once the context of the
    query is done the cursor is closed with the context's error. *)
Definition rows_awaitDone (now : nat) (r : Rows) : Rows :=
  match ctx_Err (rows_ctx r) now with
  | Some e => rows_close (Some e) r
  | None => r
  end.

(** [rs.Next()] on a cursor, after [awaitDone] has run: the new state of
    the cursor and the result. *)
Definition rows_next (r : Rows) : Rows * bool :=
  if closed r then (r, false)
  else match pending r with
       | row :: rest =>
           ({| rows_ctx := rows_ctx r; pending := rest;
               stream_end := stream_end r; lastcols := Some row;
               lasterr := None; closed := false |}, true)
       | [] => (rows_close (stream_end r) r, false)
       end.

(** ** prometheus *)

Inductive ValueType : Type := CounterValue | GaugeValue | UntypedValue.

(** [*prometheus.Desc], built by [NewDesc]. *)
Record Desc : Type := {
  fqName : string;
  help : string;
  variableLabels : list string
}.

(** [prometheus.Metric], as [NewConstMetric] builds it. *)
Record Metric : Type := {
  desc : Desc;
  valType : ValueType;
  value : float64;
  labelValues : list string
}.

(** [prometheus.BuildFQName]: the non-empty parts joined by underscores;
    empty when the name is empty. *)
Definition BuildFQName (namespace subsystem name : string) : string :=
  match name with
  | EmptyString => EmptyString
  | _ =>
      match namespace, subsystem with
      | EmptyString, EmptyString => name
      | EmptyString, _ => (subsystem ++ "_" ++ name)%string
      | _, EmptyString => (namespace ++ "_" ++ name)%string
      | _, _ => (namespace ++ "_" ++ subsystem ++ "_" ++ name)%string
      end
  end.

(** [prometheus.NewDesc(fqName, help, variableLabels, nil)]. *)
Definition NewDesc (fqName help : string) (variableLabels : list string) : Desc :=
  {| fqName := fqName; help := help; variableLabels := variableLabels |}.

(** [prometheus.NewConstMetric]: the number of label values must be the
    number of variable labels of the descriptor.  (Label values are taken
    to be valid UTF-8.) *)
Definition NewConstMetric (d : Desc) (vt : ValueType) (v : float64)
    (labels : list string) : error + Metric :=
  if (length labels =? length (variableLabels d))%nat
  then inr {| desc := d; valType := vt; value := v; labelValues := labels |}
  else inl (prom_errInconsistentCardinality (length (variableLabels d)) (length labels)).

(** ** The world a scraper runs in *)

(** The state a call of [Scrape] reads and writes: a logical clock that
    counts the calls made to the database layer, the result cursors handed
    out so far (a [*sql.Rows] is an index into the table), and the metrics
    sent over the channel [ch], oldest first. *)
Record World : Type := {
  now : nat;
  cursors : list Rows;
  chan : list Metric
}.

Definition tick (w : World) : World :=
  {| now := S (now w); cursors := cursors w; chan := chan w |}.

Definition set_cursors (cs : list Rows) (w : World) : World :=
  {| now := now w; cursors := cs; chan := chan w |}.

(** How a Go call ends: it returns a value, it panics, or the fuel of the
    model ran out before it did either. *)
Inductive Res (A : Type) : Type :=
| Val (a : A)
| Panic (e : error)
| OutOfFuel.
Arguments Val {A} a.
Arguments Panic {A} e.
Arguments OutOfFuel {A}.

Definition M (A : Type) : Type := World -> Res A * World.

Definition ret {A} (a : A) : M A := fun w => (Val a, w).

Definition bind {A B} (c : M A) (k : A -> M B) : M B := fun w =>
  match c w with
  | (Val a, w') => k a w'
  | (Panic e, w') => (Panic e, w')
  | (OutOfFuel, w') => (OutOfFuel, w')
  end.

Notation "x <- c ;; k" := (bind c (fun x => k))
  (at level 100, c at next level, right associativity).
Notation "c ;;; k" := (bind c (fun _ => k))
  (at level 100, right associativity).

Definition panic {A} (e : error) : M A := fun w => (Panic e, w).

(** [defer cleanup] around [body]: the cleanup runs when the body returns
    and when it panics. *)
Definition defer {A B} (cleanup : M B) (body : M A) : M A := fun w =>
  match body w with
  | (OutOfFuel, w') => (OutOfFuel, w')
  | (r, w') =>
      match cleanup w' with
      | (Val _, w'') => (r, w'')
      | (Panic e, w'') => (Panic e, w'')
      | (OutOfFuel, w'') => (OutOfFuel, w'')
      end
  end.

(** How the body of a loop ends: control reaches the end of the body, or
    the body executes [return err]. *)
Inductive Flow : Type :=
| Continue
| Return (err : option error).

(** [ch <- m]. *)
Definition send (m : Metric) : M unit := fun w =>
  (Val tt, {| now := now w; cursors := cursors w; chan := chan w ++ [m] |}).

(** [prometheus.MustNewConstMetric]. *)
Definition MustNewConstMetric (d : Desc) (vt : ValueType) (v : float64)
    (labels : list string) : M Metric :=
  match NewConstMetric d vt v labels with
  | inr m => ret m
  | inl e => panic e
  end.

(** [db.QueryContext(ctx, query)]: one call to the database layer.  If the
    context is done by the time the call returns, its error is the
    result; otherwise the engine's error, or a new open cursor. *)
Definition DB_QueryContext (db : DB) (ctx : Context) (query : string)
    : M (error + nat) := fun w =>
  let w1 := tick w in
  match ctx_Err ctx (now w1) with
  | Some e => (Val (inl e), w1)
  | None =>
      match db_query db query with
      | inl e => (Val (inl e), w1)
      | inr rs =>
          (Val (inr (length (cursors w1))),
           set_cursors (cursors w1 ++ [open_cursor ctx rs]) w1)
      end
  end.

(** [rows.Next()]. *)
Definition Rows_Next (rows : nat) : M bool := fun w =>
  let w1 := tick w in
  match cursors w1 !! rows with
  | None => (Panic runtime_nilDereference, w1)
  | Some r =>
      let '(r', ok) := rows_next (rows_awaitDone (now w1) r) in
      (Val ok, set_cursors (<[rows := r']> (cursors w1)) w1)
  end.

(** [rows.Close()]. *)
Definition Rows_Close (rows : nat) : M (option error) := fun w =>
  match cursors w !! rows with
  | None => (Panic runtime_nilDereference, w)
  | Some r => (Val None, set_cursors (<[rows := rows_close None r]> (cursors w)) w)
  end.

Section Scan.
Context `{Strconv}.

(** The conversion loop of [Scan] over the columns of the current row:
    the number of columns must be the number of destinations; the
    columns are converted left to right and the first failure is the
    error. *)
Definition scan_cols3 (d1 d2 d3 : Dest) (cols : list Value)
    : error + (deref d1 * deref d2 * deref d3) :=
  match cols with
  | [c1; c2; c3] =>
      match convertAssign d1 c1 with
      | None => inl (sql_errScanColumn 0)
      | Some v1 =>
          match convertAssign d2 c2 with
          | None => inl (sql_errScanColumn 1)
          | Some v2 =>
              match convertAssign d3 c3 with
              | None => inl (sql_errScanColumn 2)
              | Some v3 => inr (v1, v2, v3)
              end
          end
      end
  | _ => inl (sql_errScanArity (length cols) 3)
  end.

(** [rows.Scan(&a, &b, &c)] on a cursor, after [awaitDone] has run. *)
Definition rows_scan3 (d1 d2 d3 : Dest) (r : Rows)
    : error + (deref d1 * deref d2 * deref d3) :=
  match lasterr r with
  | Some e => inl e
  | None =>
      if closed r then inl sql_errRowsClosed
      else match lastcols r with
           | None => inl sql_errScanWithoutNext
           | Some cols => scan_cols3 d1 d2 d3 cols
           end
  end.

(** [rows.Scan(&a, &b, &c)]: the error, or the three values stored. *)
Definition Rows_Scan3 (rows : nat) (d1 d2 d3 : Dest)
    : M (error + (deref d1 * deref d2 * deref d3)) := fun w =>
  let w1 := tick w in
  match cursors w1 !! rows with
  | None => (Panic runtime_nilDereference, w1)
  | Some r =>
      let r' := rows_awaitDone (now w1) r in
      (Val (rows_scan3 d1 d2 d3 r'), set_cursors (<[rows := r']> (cursors w1)) w1)
  end.
End Scan.

(** [for rows.Next() { body }]: [Continue] when [Next] returned false,
    [Return err] when the body returned from the function. *)
Fixpoint for_Next (fuel : nat) (rows : nat) (body : M Flow) : M Flow :=
  match fuel with
  | O => fun w => (OutOfFuel, w)
  | S fuel' =>
      more <- Rows_Next rows ;;
      if (more : bool) then
        f <- body ;;
        match f with
        | Continue => for_Next fuel' rows body
        | Return err => ret (Return err)
        end
      else ret Continue
  end.

(** ** The two scrapers *)

Definition quote : string := String (ascii_of_nat 34) EmptyString.
Definition tab : string := String (ascii_of_nat 9) EmptyString.
Definition nl : string := String (ascii_of_nat 10) EmptyString.

Definition innodbTrxQuery : string :=
  (nl ++ tab ++ "select /* */"
   ++ nl ++ tab ++ tab ++ "ifnull(sum(case when TIMEDIFF(now(),trx_started) >= '00:00:05' then 1 else 0 end ),0) as " ++ quote ++ "5_sec_count" ++ quote ++ ","
   ++ nl ++ tab ++ tab ++ "ifnull(sum(case when TIMEDIFF(now(),trx_started) >= '00:00:30' then 1 else 0  end ),0) as " ++ quote ++ "30_sec_count" ++ quote ++ ","
   ++ nl ++ tab ++ tab ++ "ifnull(sum(case when TIMEDIFF(now(),trx_started) >= '00:01:00' then 1 else 0  end ),0) as " ++ quote ++ "60_sec_count" ++ quote
   ++ nl ++ tab ++ "from information_schema.innodb_trx trx"
   ++ nl ++ tab)%string.

Definition auroraHostStatQuery : string :=
  (nl ++ tab ++ tab ++ "select"
   ++ nl ++ tab ++ tab ++ "  server_id,"
   ++ nl ++ tab ++ tab ++ "  cpu,"
   ++ nl ++ tab ++ tab ++ "  replica_lag_in_milliseconds as replica_lag"
   ++ nl ++ tab ++ tab ++ "from information_schema.replica_host_status"
   ++ nl ++ tab ++ tab ++ "where server_id = @@aurora_server_id"
   ++ nl ++ tab ++ tab)%string.

(** [type ScrapeInnodbTrx struct{}]. *)
Record ScrapeInnodbTrx : Type := Build_ScrapeInnodbTrx {}.

(** [type ScrapeAuroraHostStatus struct{}]. *)
Record ScrapeAuroraHostStatus : Type := Build_ScrapeAuroraHostStatus {}.

(** The interface [Scraper] of package [collector].  The channel [ch] of
    [Scrape] is the channel of the world; the logger, which neither
    scraper uses, is left out. *)
Class Scraper (T : Type) : Type := {
  Name : T -> string;
  Help : T -> string;
  Version : T -> float64;
  Scrape : T -> nat -> Context -> DB -> M (option error)
}.

Section Collector.
Context `{Package} `{Strconv}.

(** Metric descriptors. *)
Definition infoSchemaTrxCountDesc : Desc :=
  NewDesc
    (BuildFQName namespace informationSchema "trx_count_per_sec")
    "Number of transactions performed over (period) seconds."
    ["period"].

Definition infoSchemaAuroraCPUUsageDesc : Desc :=
  NewDesc
    (BuildFQName namespace informationSchema "aurora_status_cpu_usage")
    "The cpu usage of aurora instance."
    ["server_id"].

Definition infoSchemaAuroraReplicaLagDesc : Desc :=
  NewDesc
    (BuildFQName namespace informationSchema "aurora_status_replica_lag_ms")
    "The mili-seconds of repica lag."
    ["server_id"].

Definition ScrapeInnodbTrx_Name (_ : ScrapeInnodbTrx) : string :=
  (informationSchema ++ ".innodb_trx")%string.

Definition ScrapeInnodbTrx_Help (_ : ScrapeInnodbTrx) : string :=
  "Collect metrics from information_schema.innodb_trx".

Definition ScrapeInnodbTrx_Version (_ : ScrapeInnodbTrx) : float64 :=
  float64_lit 5.6.

Definition ScrapeInnodbTrx_Scrape (_ : ScrapeInnodbTrx) (fuel : nat)
    (ctx : Context) (db : DB) : M (option error) :=
  q <- DB_QueryContext db ctx innodbTrxQuery ;;
  match q with
  | inl err => ret (Some err)
  | inr informationSchemaInnodbTrxRows =>
      defer (Rows_Close informationSchemaInnodbTrxRows) (
        let period5 := "5" in
        let period30 := "30" in
        let period60 := "60" in
        f <- for_Next fuel informationSchemaInnodbTrxRows (
          s <- Rows_Scan3 informationSchemaInnodbTrxRows
                 PtrUint64 PtrUint64 PtrUint64 ;;
          match s with
          | inl err => ret (Return (Some err))
          | inr (trx5SecCount, trx30SecCount, trx60SecCount) =>
              m <- MustNewConstMetric infoSchemaTrxCountDesc GaugeValue
                     (float64_of_uint64 trx5SecCount) [period5] ;;
              send m ;;;
              m <- MustNewConstMetric infoSchemaTrxCountDesc GaugeValue
                     (float64_of_uint64 trx30SecCount) [period30] ;;
              send m ;;;
              m <- MustNewConstMetric infoSchemaTrxCountDesc GaugeValue
                     (float64_of_uint64 trx60SecCount) [period60] ;;
              send m ;;;
              ret Continue
          end) ;;
        match f with
        | Return err => ret err
        | Continue => ret None
        end)
  end.

Definition ScrapeAuroraHostStatus_Name (_ : ScrapeAuroraHostStatus) : string :=
  "info_schema.aurora_stats".

Definition ScrapeAuroraHostStatus_Help (_ : ScrapeAuroraHostStatus) : string :=
  "Only works on aurora instance".

Definition ScrapeAuroraHostStatus_Version (_ : ScrapeAuroraHostStatus) : float64 :=
  float64_lit 5.6.

Definition ScrapeAuroraHostStatus_Scrape (_ : ScrapeAuroraHostStatus)
    (fuel : nat) (ctx : Context) (db : DB) : M (option error) :=
  q <- DB_QueryContext db ctx auroraHostStatQuery ;;
  match q with
  | inl err => ret (Some err)
  | inr informationSchemaReplicaHostStatusRows =>
      defer (Rows_Close informationSchemaReplicaHostStatusRows) (
        f <- for_Next fuel informationSchemaReplicaHostStatusRows (
          s <- Rows_Scan3 informationSchemaReplicaHostStatusRows
                 PtrString PtrFloat64 PtrFloat64 ;;
          match s with
          | inl err => ret (Return (Some err))
          | inr (auroraServerID, cpu, replicaLag) =>
              m <- MustNewConstMetric infoSchemaAuroraCPUUsageDesc GaugeValue
                     cpu [auroraServerID] ;;
              send m ;;;
              m <- MustNewConstMetric infoSchemaAuroraReplicaLagDesc GaugeValue
                     replicaLag [auroraServerID] ;;
              send m ;;;
              ret Continue
          end) ;;
        match f with
        | Return err => ret err
        | Continue => ret None
        end)
  end.

(** [var _ Scraper = ScrapeInnodbTrx{}]. *)
#[export] Instance ScrapeInnodbTrx_Scraper : Scraper ScrapeInnodbTrx := {|
  Name := ScrapeInnodbTrx_Name;
  Help := ScrapeInnodbTrx_Help;
  Version := ScrapeInnodbTrx_Version;
  Scrape := ScrapeInnodbTrx_Scrape
|}.

(** [var _ Scraper = ScrapeAuroraHostStatus{}]. *)
#[export] Instance ScrapeAuroraHostStatus_Scraper : Scraper ScrapeAuroraHostStatus := {|
  Name := ScrapeAuroraHostStatus_Name;
  Help := ScrapeAuroraHostStatus_Help;
  Version := ScrapeAuroraHostStatus_Version;
  Scrape := ScrapeAuroraHostStatus_Scrape
|}.

(** *** What a run pushes, as a function of the rows

    The definitions below describe a call of [Scrape] row by row; the
    section [Runs] proves that the two methods compute them. *)

(** The two implementations of [Scraper] in the two files. *)
Variant Impl : Type := InnodbTrx | AuroraHostStatus.

Definition Scrape_of (k : Impl) : nat -> Context -> DB -> M (option error) :=
  match k with
  | InnodbTrx => Scrape Build_ScrapeInnodbTrx
  | AuroraHostStatus => Scrape Build_ScrapeAuroraHostStatus
  end.

Definition query_of (k : Impl) : string :=
  match k with
  | InnodbTrx => innodbTrxQuery
  | AuroraHostStatus => auroraHostStatQuery
  end.


Definition gauge (d : Desc) (v : float64) (label : string) : Metric :=
  {| desc := d; valType := GaugeValue; value := v; labelValues := [label] |}.

(** The metrics of one iteration of the innodb_trx loop, in the order
    sent. *)
Definition trx_points (counts : Z * Z * Z) : list Metric :=
  let '(trx5SecCount, trx30SecCount, trx60SecCount) := counts in
  [ gauge infoSchemaTrxCountDesc (float64_of_uint64 trx5SecCount) "5";
    gauge infoSchemaTrxCountDesc (float64_of_uint64 trx30SecCount) "30";
    gauge infoSchemaTrxCountDesc (float64_of_uint64 trx60SecCount) "60" ].

(** The metrics of one iteration of the Aurora loop, in the order sent. *)
Definition aurora_points (host : string * float64 * float64) : list Metric :=
  let '(auroraServerID, cpu, replicaLag) := host in
  [ gauge infoSchemaAuroraCPUUsageDesc cpu auroraServerID;
    gauge infoSchemaAuroraReplicaLagDesc replicaLag auroraServerID ].

Definition scan_points {d1 d2 d3 : Dest}
    (mk : deref d1 * deref d2 * deref d3 -> list Metric)
    (row : list Value) : error + list Metric :=
  match scan_cols3 d1 d2 d3 row with
  | inl e => inl e
  | inr t => inr (mk t)
  end.

(** What one row becomes: the error of its decoding, or its metrics. *)
Definition row_points (k : Impl) (row : list Value) : error + list Metric :=
  match k with
  | InnodbTrx => scan_points (d1 := PtrUint64) (d2 := PtrUint64) (d3 := PtrUint64) trx_points row
  | AuroraHostStatus => scan_points (d1 := PtrString) (d2 := PtrFloat64) (d3 := PtrFloat64) aurora_points row
  end.

(** A row decodes when [Scan] returns no error on it. *)
Definition decodes (k : Impl) (row : list Value) : bool :=
  match row_points k row with
  | inr _ => true
  | inl _ => false
  end.

(** The metrics of a list of rows that all decode: row after row, and
    within a row in the order sent. *)
Definition points_of (k : Impl) (rows : list (list Value)) : list Metric :=
  flat_map (fun row => match row_points k row with
                       | inr ps => ps
                       | inl _ => []
                       end) rows.
End Collector.

(** What a loop over [rows] pushes and how it ends, when it starts at
    instant [now] under context [ctx] and [pts] is what a row becomes.
    An iteration makes two calls, [Next] and [Scan]; either can be the
    first to find the context done. *)
Fixpoint loop_result (pts : list Value -> error + list Metric) (ctx : Context)
    (now : nat) (rows : list (list Value)) : list Metric * Flow :=
  match rows with
  | [] => ([], Continue)
  | row :: rest =>
      match ctx_Err ctx (S now) with
      | Some _ => ([], Continue)
      | None =>
          match ctx_Err ctx (S (S now)) with
          | Some e => ([], Return (Some e))
          | None =>
              match pts row with
              | inl e => ([], Return (Some e))
              | inr ps =>
                  let '(more, f) := loop_result pts ctx (S (S now)) rest in
                  (ps ++ more, f)
              end
          end
      end
  end.

(** The rows the engine answers a query with; none when the query fails. *)
Definition result_rows (db : DB) (query : string) : list (list Value) :=
  match db_query db query with
  | inr rs => rs_rows rs
  | inl _ => []
  end.

(** What a whole call pushes and returns. *)
Definition call_result (pts : list Value -> error + list Metric) (query : string)
    (ctx : Context) (db : DB) (now : nat) : list Metric * option error :=
  match ctx_Err ctx (S now) with
  | Some e => ([], Some e)
  | None =>
      match db_query db query with
      | inl e => ([], Some e)
      | inr rs =>
          let '(ps, f) := loop_result pts ctx (S now) (rs_rows rs) in
          (ps, match f with Return err => err | Continue => None end)
      end
  end.

(** The loop body the two scrapers share: scan three columns, return the
    error of the scan or send the metrics [mk] makes of the values. *)
Definition scan_send `{Strconv} (rows : nat) (d1 d2 d3 : Dest)
    (mk : deref d1 * deref d2 * deref d3 -> list Metric) : M Flow := fun w =>
  match Rows_Scan3 rows d1 d2 d3 w with
  | (Val (inl err), w') => (Val (Return (Some err)), w')
  | (Val (inr t), w') =>
      (Val Continue,
       {| now := now w'; cursors := cursors w'; chan := chan w' ++ mk t |})
  | (Panic e, w') => (Panic e, w')
  | (OutOfFuel, w') => (OutOfFuel, w')
  end.

(** The shape the two [Scrape] methods share: query, deferred close, loop
    over the rows with [scan_send], [return nil]. *)
Definition query_scan_send `{Strconv} (query : string) (d1 d2 d3 : Dest)
    (mk : deref d1 * deref d2 * deref d3 -> list Metric)
    (fuel : nat) (ctx : Context) (db : DB) : M (option error) :=
  q <- DB_QueryContext db ctx query ;;
  match q with
  | inl err => ret (Some err)
  | inr rows =>
      defer (Rows_Close rows) (
        f <- for_Next fuel rows (scan_send rows d1 d2 d3 mk) ;;
        match f with
        | Return err => ret err
        | Continue => ret None
        end)
  end.

(** What a call does to the table of cursors: when the query succeeds one
    cursor is added, and it is closed; when it fails the table is as it
    was. *)
Definition cursor_released (ctx : Context) (db : DB) (query : string)
    (w w' : World) : Prop :=
  match ctx_Err ctx (S (now w)), db_query db query with
  | None, inr _ => exists r, cursors w' = cursors w ++ [r] /\ closed r = true
  | _, _ => cursors w' = cursors w
  end.

(** ** Auxiliary definitions for the properties of whole runs *)

(** The number a decimal numeral denotes, read most significant digit
    first on top of the digits [acc] already read. *)
Fixpoint uint_value (d : Decimal.uint) (acc : Z) : Z :=
  match d with
  | Decimal.Nil => acc
  | Decimal.D0 d => uint_value d (acc * 10 + 0)
  | Decimal.D1 d => uint_value d (acc * 10 + 1)
  | Decimal.D2 d => uint_value d (acc * 10 + 2)
  | Decimal.D3 d => uint_value d (acc * 10 + 3)
  | Decimal.D4 d => uint_value d (acc * 10 + 4)
  | Decimal.D5 d => uint_value d (acc * 10 + 5)
  | Decimal.D6 d => uint_value d (acc * 10 + 6)
  | Decimal.D7 d => uint_value d (acc * 10 + 7)
  | Decimal.D8 d => uint_value d (acc * 10 + 8)
  | Decimal.D9 d => uint_value d (acc * 10 + 9)
  end.




(** ** Example inputs *)

(** The values the package constants have upstream. *)
Definition example_package : Package :=
  {| namespace := "mysql"; informationSchema := "info_schema" |}.

(** A [strconv] that reads no text as a float.  The example rows carry
    their floats as [float64] values and their counts as integers or
    digits, so no example goes through it. *)
Definition example_strconv : Strconv :=
  {| FormatFloat := fun _ => EmptyString; ParseFloat := fun _ => None |}.

Definition trx_rows : ResultSet :=
  {| rs_rows := [ [VBytes "5"; VBytes "2"; VBytes "0"];
                  [VInt64 7; VInt64 3; VInt64 1] ];
     rs_end := None |}.

Definition aurora_rows : ResultSet :=
  {| rs_rows := [ [VString "i-1"; VFloat64 (float64_lit 12.5); VFloat64 (float64_lit 3.0)];
                  [VBytes "i-2"; VFloat64 (float64_lit 40.0); VFloat64 (float64_lit 0.0)] ];
     rs_end := None |}.

(** An engine that answers the two queries and no other. *)
Definition example_db : DB :=
  {| db_query := fun query =>
       if String.eqb query innodbTrxQuery then inr trx_rows
       else if String.eqb query auroraHostStatQuery then inr aurora_rows
       else inl (driver_error "Error 1064: You have an error in your SQL syntax") |}.

(** An engine whose third row carries a negative count. *)
Definition negative_count_db : DB :=
  {| db_query := fun _ =>
       inr {| rs_rows := [ [VInt64 1; VInt64 1; VInt64 0];
                           [VInt64 4; VInt64 0; VInt64 0];
                           [VInt64 2; VInt64 (-1); VInt64 0];
                           [VInt64 9; VInt64 9; VInt64 9] ];
              rs_end := None |} |}.

(** An engine that answers every query with the one row (5, 2, 0), as the
    text protocol delivers it. *)
Definition one_row_db : DB :=
  {| db_query := fun _ =>
       inr {| rs_rows := [ [VBytes "5"; VBytes "2"; VBytes "0"] ]; rs_end := None |} |}.

(** An engine that cannot be reached. *)
Definition unreachable_db : DB :=
  {| db_query := fun _ => inl (driver_error "dial tcp: connection refused") |}.



Definition empty_world : World := {| now := 0; cursors := []; chan := [] |}.

(** A world in which calls were made before: the clock has advanced, a
    closed cursor is in the table and a metric is in the channel. *)
Definition later_world : World :=
  {| now := 40;
     cursors := [rows_close None (open_cursor Background trx_rows)];
     chan := [ {| desc := NewDesc "up" "Whether the server is up." [];
                  valType := GaugeValue; value := float64_lit 1; labelValues := [] |} ] |}.

(** * Properties *)

(** ** Scalars and conversions *)

Lemma shr_1_nonneg r : 0 <= shr_m r -> 0 <= shr_m (shr_1 r).
Proof. destruct r as [m r s]. destruct m as [|[p|p|]|p]; simpl; lia. Qed.

Lemma iter_shr_1_nonneg n : forall r, 0 <= shr_m r -> 0 <= shr_m (SpecFloat.iter_pos shr_1 n r).
Proof.
  induction n as [n IH|n IH|]; intros r Hr; simpl.
  - apply IH, IH, shr_1_nonneg, Hr.
  - apply IH, IH, Hr.
  - apply shr_1_nonneg, Hr.
Qed.

Lemma shr_fexp_nonneg prec emax m e l :
  0 <= m -> 0 <= shr_m (fst (shr_fexp prec emax m e l)).
Proof.
  intros Hm. unfold shr_fexp, shr.
  assert (H0 : 0 <= shr_m (shr_record_of_loc m l)) by (destruct l as [|[]]; exact Hm).
  destruct (fexp prec emax (Zdigits2 m + e) - e); simpl; auto using iter_shr_1_nonneg.
Qed.

Lemma round_nearest_even_nonneg mx lx : 0 <= mx -> 0 <= round_nearest_even mx lx.
Proof. intros Hm. destruct lx as [|[]]; simpl; try destruct (Z.even mx); lia. Qed.

Lemma binary_round_aux_nonneg prec emax mx ex lx :
  0 <= mx -> SFleb (S754_zero false) (binary_round_aux prec emax false mx ex lx) = true.
Proof.
  intros Hm. unfold binary_round_aux.
  pose proof (shr_fexp_nonneg prec emax mx ex lx Hm) as H1.
  destruct (shr_fexp prec emax mx ex lx) as [mrs' e']. simpl in H1.
  pose proof (shr_fexp_nonneg prec emax _ e' loc_Exact
                (round_nearest_even_nonneg _ (loc_of_shr_record mrs') H1)) as H2.
  destruct (shr_fexp prec emax (round_nearest_even (shr_m mrs') (loc_of_shr_record mrs')) e' loc_Exact)
    as [mrs'' e'']. simpl in H2.
  destruct (shr_m mrs'') as [|m|m]; [reflexivity| |lia].
  destruct (e'' <=? emax - prec); reflexivity.
Qed.

(** [float64(u)] of an unsigned integer is neither negative nor NaN. *)
Lemma float64_of_uint64_nonneg u : 0 <= u -> float64_nonneg (float64_of_uint64 u) = true.
Proof.
  intros Hu. unfold float64_nonneg, float64_of_uint64, binary_normalize.
  destruct u as [|p|p]; [reflexivity| |lia].
  unfold binary_round. destruct (shl_align p 0 _) as [mz ez].
  apply binary_round_aux_nonneg. lia.
Qed.

Lemma parse_digits_range s : forall acc r,
  0 <= acc <= uint64_max -> parse_digits s acc = Some r -> 0 <= r <= uint64_max.
Proof.
  induction s as [|c s IH]; intros acc r Hacc; simpl.
  - intros [= <-]. exact Hacc.
  - unfold digit_value. destruct ((48 <=? _) && (_ <=? 57)) eqn:Ed; [|discriminate].
    apply andb_true_iff in Ed as [E1%Z.leb_le E2%Z.leb_le].
    destruct (_ <=? uint64_max) eqn:El; [|discriminate].
    apply Z.leb_le in El. apply IH. lia.
Qed.

Lemma ParseUint_range s r : ParseUint s = Some r -> is_uint64 r.
Proof.
  unfold ParseUint, is_uint64. destruct s; [discriminate|].
  apply parse_digits_range. unfold uint64_max. lia.
Qed.

(** A negative integer is formatted with a sign, which [ParseUint]
    rejects. *)
Lemma FormatInt_neg i : i < 0 -> ParseUint (FormatInt i) = None.
Proof.
  destruct i as [|p|p]; try lia. intros _. reflexivity.
Qed.

(** ** Runs of the two scrapers *)

Section Runs.
Context `{Package} `{Strconv}.

(** The loop depends on its body only through what the body does. *)
Lemma for_Next_ext (b1 b2 : M Flow) (rows : nat) :
  (forall w, b1 w = b2 w) ->
  forall fuel w, for_Next fuel rows b1 w = for_Next fuel rows b2 w.
Proof.
  intros Hb fuel; induction fuel as [|fuel IH]; intros w; simpl; [reflexivity|].
  unfold bind. destruct (Rows_Next rows w) as [[[|]|e|] w1]; try reflexivity.
  rewrite Hb. destruct (b2 w1) as [[[|err]|e|] w2]; auto.
Qed.

Lemma fst_let {A B} (X : list A * B) (ps : list A) :
  fst (let '(more, f) := X in (ps ++ more, f)) = (ps ++ fst X)%list.
Proof. destruct X; reflexivity. Qed.

Lemma snd_let {A B} (X : list A * B) (ps : list A) :
  snd (let '(more, f) := X in (ps ++ more, f)) = snd X.
Proof. destruct X; reflexivity. Qed.

(** The loop over an open cursor, with more fuel than rows pending,
    ends as [loop_result] says, touches no cursor but its own and
    appends to the channel what [loop_result] says. *)
Lemma loop_run d1 d2 d3 (mk : deref d1 * deref d2 * deref d3 -> list Metric) h :
  forall rows r w fuel,
  cursors w !! h = Some r -> closed r = false -> lasterr r = None ->
  pending r = rows -> (length rows < fuel)%nat ->
  exists r' t,
    for_Next fuel h (scan_send h d1 d2 d3 mk) w =
      (Val (snd (loop_result (scan_points mk) (rows_ctx r) (now w) rows)),
       {| now := t; cursors := <[h := r']> (cursors w);
          chan := chan w ++ fst (loop_result (scan_points mk) (rows_ctx r) (now w) rows) |}).
Proof.
  induction rows as [|row rest IH]; intros r w fuel Hh Hopen Herr Hpend Hfuel;
    (destruct fuel as [|fuel]; [simpl in Hfuel; lia|]).
  - simpl. unfold bind, Rows_Next. simpl. rewrite Hh.
    unfold rows_awaitDone, rows_next, rows_close.
    destruct (ctx_Err (rows_ctx r) (S (now w))) as [e|]; rewrite ?Hopen; simpl;
      rewrite ?Hpend, ?Hopen; simpl; rewrite app_nil_r; eauto.
  - simpl. unfold bind, Rows_Next. simpl. rewrite Hh.
    unfold rows_awaitDone at 1.
    destruct (ctx_Err (rows_ctx r) (S (now w))) as [e|] eqn:E1.
    + unfold rows_next, rows_close. rewrite Hopen. simpl. rewrite app_nil_r; eauto.
    + unfold rows_next. rewrite Hopen, Hpend. simpl.
      unfold scan_send at 1; unfold Rows_Scan3. simpl.
      pose proof (lookup_lt_Some _ _ _ Hh) as Hlt.
      rewrite list_lookup_insert_eq by exact Hlt.
      unfold rows_awaitDone. simpl.
      destruct (ctx_Err (rows_ctx r) (S (S (now w)))) as [e|] eqn:E2.
      * unfold rows_close, rows_scan3. simpl. rewrite ?Herr. simpl.
        rewrite list_insert_insert_eq, app_nil_r. eauto.
      * unfold rows_scan3. simpl. unfold scan_points.
        destruct (scan_cols3 d1 d2 d3 row) as [e|t] eqn:E3.
        -- simpl. rewrite list_insert_insert_eq, app_nil_r. eauto.
        -- rewrite fst_let, snd_let.
           match goal with |- context [for_Next fuel h _ ?w3] =>
             destruct (IH _ w3 fuel ltac:(simpl; rewrite list_lookup_insert_eq; [reflexivity | rewrite length_insert; exact Hlt]) eq_refl eq_refl eq_refl ltac:(simpl in Hfuel; lia)) as (r' & t' & ->)
           end.
           simpl. rewrite !list_insert_insert_eq, <- app_assoc. eauto.
Qed.

(** A call of the shared shape, with more fuel than the query has rows,
    returns and pushes what [call_result] says, and leaves the cursor it
    opened closed. *)
Lemma call_run query d1 d2 d3 (mk : deref d1 * deref d2 * deref d3 -> list Metric)
    fuel ctx db w :
  (length (result_rows db query) < fuel)%nat ->
  exists w',
    query_scan_send query d1 d2 d3 mk fuel ctx db w =
      (Val (snd (call_result (scan_points mk) query ctx db (now w))), w') /\
    chan w' = chan w ++ fst (call_result (scan_points mk) query ctx db (now w)) /\
    cursor_released ctx db query w w'.
Proof.
  intros Hfuel.
  unfold query_scan_send, call_result, cursor_released, result_rows, bind, DB_QueryContext in *.
  simpl.
  destruct (ctx_Err ctx (S (now w))) as [e|] eqn:E1.
  { eexists; split; [reflexivity|]. simpl. rewrite app_nil_r. auto. }
  destruct (db_query db query) as [e|rs] eqn:E2.
  { eexists; split; [reflexivity|]. simpl. rewrite app_nil_r. auto. }
  unfold defer, bind.
  match goal with |- context [for_Next fuel ?h _ ?w1] =>
    destruct (loop_run d1 d2 d3 mk h (rs_rows rs) (open_cursor ctx rs) w1 fuel) as (r' & t & ->)
  end; try reflexivity; try exact Hfuel.
  { simpl. apply list_lookup_middle. reflexivity. }
  simpl.
  destruct (loop_result (scan_points mk) ctx (S (now w)) (rs_rows rs)) as [ps f] eqn:E3.
  simpl.
  assert (Hlook : <[length (cursors w) := r']> (cursors w ++ [open_cursor ctx rs]) !! length (cursors w) = Some r').
  { apply list_lookup_insert_eq. rewrite length_app. simpl. lia. }
  destruct f as [|err]; unfold ret, Rows_Close; simpl; rewrite Hlook; simpl;
    (eexists; split; [reflexivity|]; simpl; split; [reflexivity|]);
    exists (rows_close None r');
    (split; [| unfold rows_close; destruct (closed r') eqn:Ec; [exact Ec | reflexivity]]);
    rewrite list_insert_insert_eq;
    replace (length (cursors w)) with (length (cursors w) + 0)%nat at 1 by lia;
    rewrite insert_app_r; reflexivity.
Qed.

(** The two methods are instances of the shared shape. *)
Lemma ScrapeInnodbTrx_Scrape_shape s fuel ctx db w :
  ScrapeInnodbTrx_Scrape s fuel ctx db w =
  query_scan_send innodbTrxQuery PtrUint64 PtrUint64 PtrUint64 trx_points fuel ctx db w.
Proof.
  unfold ScrapeInnodbTrx_Scrape, query_scan_send, bind.
  destruct (DB_QueryContext db ctx innodbTrxQuery w) as [[[e|h]|e|] w1]; try reflexivity.
  unfold defer, bind.
  erewrite (for_Next_ext _ (scan_send h PtrUint64 PtrUint64 PtrUint64 trx_points)); [reflexivity|].
  intros w2. unfold scan_send, bind.
  destruct (Rows_Scan3 h PtrUint64 PtrUint64 PtrUint64 w2) as [[[e|[[a b] c]]|e|] w3];
    try reflexivity.
  unfold trx_points, gauge. simpl. rewrite <- !app_assoc. reflexivity.
Qed.

Lemma ScrapeAuroraHostStatus_Scrape_shape s fuel ctx db w :
  ScrapeAuroraHostStatus_Scrape s fuel ctx db w =
  query_scan_send auroraHostStatQuery PtrString PtrFloat64 PtrFloat64 aurora_points fuel ctx db w.
Proof.
  unfold ScrapeAuroraHostStatus_Scrape, query_scan_send, bind.
  destruct (DB_QueryContext db ctx auroraHostStatQuery w) as [[[e|h]|e|] w1]; try reflexivity.
  unfold defer, bind.
  erewrite (for_Next_ext _ (scan_send h PtrString PtrFloat64 PtrFloat64 aurora_points)); [reflexivity|].
  intros w2. unfold scan_send, bind.
  destruct (Rows_Scan3 h PtrString PtrFloat64 PtrFloat64 w2) as [[[e|[[a b] c]]|e|] w3];
    try reflexivity.
  unfold aurora_points, gauge. simpl. rewrite <- !app_assoc. reflexivity.
Qed.

(** Every call with enough fuel returns, and pushes and returns what
    [call_result] says. *)
Lemma Scrape_run (k : Impl) fuel ctx db w :
  (length (result_rows db (query_of k)) < fuel)%nat ->
  exists w',
    Scrape_of k fuel ctx db w =
      (Val (snd (call_result (row_points k) (query_of k) ctx db (now w))), w') /\
    chan w' = chan w ++ fst (call_result (row_points k) (query_of k) ctx db (now w)) /\
    cursor_released ctx db (query_of k) w w'.
Proof.
  intros Hfuel. destruct k; simpl in *.
  - rewrite ScrapeInnodbTrx_Scrape_shape. apply call_run, Hfuel.
  - rewrite ScrapeAuroraHostStatus_Scrape_shape. apply call_run, Hfuel.
Qed.

Lemma ctx_Err_mono ctx t t' :
  ctx_Err ctx t = None -> (t' <= t)%nat -> ctx_Err ctx t' = None.
Proof.
  destruct ctx as [|d why]; simpl; [reflexivity|]. intros Ht Hle.
  destruct (Nat.leb_spec d t); [discriminate|].
  destruct (Nat.leb_spec d t'); [lia|reflexivity].
Qed.




Lemma decodes_inr k row : decodes k row = true -> exists ps, row_points k row = inr ps.
Proof. unfold decodes. destruct (row_points k row) as [e|ps]; [discriminate|eauto]. Qed.


(** A prefix of rows that decode, under a context that is not done
    before the prefix is through, contributes its metrics and leaves the
    rest of the loop as it would run alone. *)
Lemma loop_result_app k ctx : forall pre n rest,
  forallb (decodes k) pre = true ->
  ctx_Err ctx (n + 2 * length pre) = None ->
  loop_result (row_points k) ctx n (pre ++ rest) =
    (points_of k pre ++ fst (loop_result (row_points k) ctx (n + 2 * length pre) rest),
     snd (loop_result (row_points k) ctx (n + 2 * length pre) rest)).
Proof.
  induction pre as [|row pre IH]; intros n rest Hdec Hctx.
  - simpl. rewrite Nat.add_0_r. destruct (loop_result _ ctx n rest); reflexivity.
  - simpl in Hdec. apply andb_true_iff in Hdec as [Hrow Hpre].
    destruct (decodes_inr _ _ Hrow) as [ps Hps].
    simpl length in *.
    replace (n + 2 * S (length pre))%nat with (S (S n) + 2 * length pre)%nat in * by lia.
    cbn [app loop_result points_of flat_map].
    rewrite (ctx_Err_mono _ _ (S n) Hctx), (ctx_Err_mono _ _ (S (S n)) Hctx) by lia.
    rewrite Hps, (IH (S (S n)) rest Hpre Hctx). fold (points_of k pre).
    simpl. rewrite app_assoc. reflexivity.
Qed.



Lemma result_rows_inr db query rs :
  db_query db query = inr rs -> result_rows db query = rs_rows rs.
Proof. unfold result_rows. intros ->. reflexivity. Qed.

(** A run over rows that all decode, under a context that is not done
    before the last Scan: nil, and the metrics of the rows. *)
Lemma run_all_rows (k : Impl) fuel ctx db w rs :
  db_query db (query_of k) = inr rs ->
  ctx_Err ctx (S (now w) + 2 * length (rs_rows rs)) = None ->
  forallb (decodes k) (rs_rows rs) = true ->
  (length (rs_rows rs) < fuel)%nat ->
  exists w',
    Scrape_of k fuel ctx db w = (Val None, w') /\
    chan w' = chan w ++ points_of k (rs_rows rs).
Proof.
  intros Hq Hctx Hdec Hfuel.
  destruct (Scrape_run k fuel ctx db w) as (w' & Hrun & Hchan & _).
  { rewrite (result_rows_inr _ _ _ Hq). exact Hfuel. }
  unfold call_result in *.
  rewrite (ctx_Err_mono _ _ (S (now w)) Hctx), Hq in * by lia.
  rewrite <- (app_nil_r (rs_rows rs)) in Hrun, Hchan at 1.
  rewrite (loop_result_app k ctx _ _ [] Hdec Hctx) in Hrun, Hchan.
  simpl in Hrun, Hchan. rewrite app_nil_r in Hchan.
  exists w'. auto.
Qed.



(** C3: when the call of QueryContext fails, [Scrape] returns the error of
    that call and pushes nothing; the table of cursors is as it was, so
    the call opened no cursor. *)
Theorem C3_query_fails (k : Impl) fuel ctx db w e w1 :
  DB_QueryContext db ctx (query_of k) w = (Val (inl e), w1) ->
  Scrape_of k fuel ctx db w = (Val (Some e), w1) /\
  chan w1 = chan w /\
  cursors w1 = cursors w.
Proof.
  intros Hq. split.
  - destruct k; simpl in *;
      [rewrite ScrapeInnodbTrx_Scrape_shape | rewrite ScrapeAuroraHostStatus_Scrape_shape];
      unfold query_scan_send, bind; rewrite Hq; reflexivity.
  - unfold DB_QueryContext in Hq. simpl in Hq.
    destruct (ctx_Err ctx (S (now w))); [injection Hq as _ <-; auto|].
    destruct (db_query db (query_of k)); [injection Hq as _ <-; auto | discriminate].
Qed.

(** A run that ended is not changed by more fuel. *)
Lemma for_Next_fuel_mono rows body : forall fuel w res w',
  for_Next fuel rows body w = (res, w') -> res <> OutOfFuel ->
  forall extra, for_Next (fuel + extra) rows body w = (res, w').
Proof.
  induction fuel as [|fuel IH]; simpl; intros w res w' Hrun Hres extra.
  - injection Hrun as <- _. congruence.
  - unfold bind in *.
    destruct (Rows_Next rows w) as [[[|]|e|] w1]; auto.
    destruct (body w1) as [[[|err]|e|] w2]; auto.
Qed.

Lemma query_scan_send_fuel_mono query d1 d2 d3
    (mk : deref d1 * deref d2 * deref d3 -> list Metric) fuel ctx db w res w' :
  query_scan_send query d1 d2 d3 mk fuel ctx db w = (res, w') -> res <> OutOfFuel ->
  forall extra, query_scan_send query d1 d2 d3 mk (fuel + extra) ctx db w = (res, w').
Proof.
  unfold query_scan_send, bind. intros Hrun Hres extra.
  destruct (DB_QueryContext db ctx query w) as [[[e|h]|e|] w1]; auto.
  unfold defer, bind in *.
  destruct (for_Next fuel h (scan_send h d1 d2 d3 mk) w1) as [r w2] eqn:E.
  destruct r as [f|e|].
  - rewrite (for_Next_fuel_mono _ _ _ _ _ _ E) by discriminate. exact Hrun.
  - rewrite (for_Next_fuel_mono _ _ _ _ _ _ E) by discriminate. exact Hrun.
  - injection Hrun as <- _. congruence.
Qed.

Lemma Scrape_of_fuel_mono (k : Impl) fuel ctx db w res w' :
  Scrape_of k fuel ctx db w = (res, w') -> res <> OutOfFuel ->
  forall extra, Scrape_of k (fuel + extra) ctx db w = (res, w').
Proof.
  destruct k; simpl; intros Hrun Hres extra.
  - rewrite ScrapeInnodbTrx_Scrape_shape in *. eauto using query_scan_send_fuel_mono.
  - rewrite ScrapeAuroraHostStatus_Scrape_shape in *. eauto using query_scan_send_fuel_mono.
Qed.

(** C5: in the final state of every run of [Scrape] that ends (by a
    return or a panic) after QueryContext opened a cursor, that cursor,
    the one the call added to the table, is closed. *)
Theorem C5_cursor_closed (k : Impl) fuel ctx db w rs res w' :
  db_query db (query_of k) = inr rs ->
  ctx_Err ctx (S (now w)) = None ->
  Scrape_of k fuel ctx db w = (res, w') ->
  res <> OutOfFuel ->
  exists r, cursors w' = cursors w ++ [r] /\ closed r = true.
Proof.
  intros Hq Hctx Hrun Hres.
  pose proof (Scrape_of_fuel_mono _ _ _ _ _ _ _ Hrun Hres (S (length (rs_rows rs)))) as Hbig.
  destruct (Scrape_run k (fuel + S (length (rs_rows rs))) ctx db w) as (w'' & Hrun' & _ & Hcur).
  { rewrite (result_rows_inr _ _ _ Hq). lia. }
  rewrite Hbig in Hrun'. injection Hrun' as _ <-.
  unfold cursor_released in Hcur. rewrite Hctx, Hq in Hcur. exact Hcur.
Qed.





Lemma trx_points_of_decoded : forall rows,
  forallb (decodes InnodbTrx) rows = true ->
  exists counts,
    Forall2 (fun row t => scan_cols3 PtrUint64 PtrUint64 PtrUint64 row = inr t) rows counts /\
    points_of InnodbTrx rows = flat_map trx_points counts.
Proof.
  induction rows as [|row rows IH]; intros Hdec.
  - exists []. split; [constructor|reflexivity].
  - simpl in Hdec. apply andb_true_iff in Hdec as [Hrow Hrows].
    destruct (IH Hrows) as (counts & Hall & Hpts).
    unfold decodes, row_points, scan_points in Hrow.
    destruct (scan_cols3 PtrUint64 PtrUint64 PtrUint64 row) as [e|t] eqn:Et; [discriminate|].
    exists (t :: counts). split; [constructor; assumption|].
    unfold points_of in *. cbn [flat_map]. rewrite Hpts.
    unfold row_points, scan_points. rewrite Et. reflexivity.
Qed.

(** C6: when the innodb_trx query returns the one row (5, 2, 0), [Scrape]
    pushes three gauges of the descriptor [infoSchemaTrxCountDesc]: 5.0
    labelled 5, then 2.0 labelled 30, then 0.0 labelled 60.  For every
    result set that decodes, the rows are pushed in the order returned,
    and the three gauges of a row in the order 5, 30, 60. *)
Theorem C6_trx_points_in_order :
  (forall fuel ctx db w rs row,
     db_query db innodbTrxQuery = inr rs ->
     rs_rows rs = [row] ->
     scan_cols3 PtrUint64 PtrUint64 PtrUint64 row = inr (5, 2, 0) ->
     ctx_Err ctx (now w + 3) = None ->
     (1 < fuel)%nat ->
     exists w',
       Scrape Build_ScrapeInnodbTrx fuel ctx db w = (Val None, w') /\
       chan w' = chan w ++
         [ {| desc := infoSchemaTrxCountDesc; valType := GaugeValue;
              value := float64_lit 5; labelValues := ["5"] |};
           {| desc := infoSchemaTrxCountDesc; valType := GaugeValue;
              value := float64_lit 2; labelValues := ["30"] |};
           {| desc := infoSchemaTrxCountDesc; valType := GaugeValue;
              value := float64_lit 0; labelValues := ["60"] |} ]) /\
  (forall fuel ctx db w rs,
     db_query db innodbTrxQuery = inr rs ->
     forallb (decodes InnodbTrx) (rs_rows rs) = true ->
     ctx_Err ctx (S (now w) + 2 * length (rs_rows rs)) = None ->
     (length (rs_rows rs) < fuel)%nat ->
     exists w' counts,
       Scrape Build_ScrapeInnodbTrx fuel ctx db w = (Val None, w') /\
       Forall2 (fun row t => scan_cols3 PtrUint64 PtrUint64 PtrUint64 row = inr t)
         (rs_rows rs) counts /\
       chan w' = chan w ++
         flat_map (fun '(trx5SecCount, trx30SecCount, trx60SecCount) =>
           [ gauge infoSchemaTrxCountDesc (float64_of_uint64 trx5SecCount) "5";
             gauge infoSchemaTrxCountDesc (float64_of_uint64 trx30SecCount) "30";
             gauge infoSchemaTrxCountDesc (float64_of_uint64 trx60SecCount) "60" ]) counts).
Proof.
  split.
  - intros fuel ctx db w rs row Hq Hrows Hscan Hctx Hfuel.
    destruct (run_all_rows InnodbTrx fuel ctx db w rs Hq) as (w' & Hrun & Hchan).
    + rewrite Hrows. simpl. rewrite <- Hctx. f_equal. lia.
    + rewrite Hrows. simpl. unfold decodes, row_points, scan_points. rewrite Hscan. reflexivity.
    + rewrite Hrows. exact Hfuel.
    + exists w'. split; [exact Hrun|]. rewrite Hchan, Hrows.
      unfold points_of. simpl. unfold scan_points. rewrite Hscan. reflexivity.
  - intros fuel ctx db w rs Hq Hdec Hctx Hfuel.
    destruct (run_all_rows InnodbTrx fuel ctx db w rs Hq Hctx Hdec Hfuel) as (w' & Hrun & Hchan).
    destruct (trx_points_of_decoded _ Hdec) as (counts & Hall & Hpts).
    exists w', counts. rewrite Hchan, Hpts. auto.
Qed.

Lemma append_inj_l (p a b : string) : (p ++ a = p ++ b)%string -> a = b.
Proof. induction p as [|c p IH]; simpl; [auto|]. intros [= Heq]. auto. Qed.

Lemma BuildFQName_inj (ns sub a b : string) :
  a <> EmptyString -> b <> EmptyString ->
  BuildFQName ns sub a = BuildFQName ns sub b -> a = b.
Proof.
  intros Ha Hb. unfold BuildFQName.
  destruct a as [|ca a]; [congruence|]. destruct b as [|cb b]; [congruence|].
  destruct ns as [|c ns], sub as [|c' sub]; intros Heq.
  - exact Heq.
  - apply (append_inj_l (String c' sub)) in Heq. apply (append_inj_l "_") in Heq. exact Heq.
  - apply (append_inj_l (String c ns)) in Heq. apply (append_inj_l "_") in Heq. exact Heq.
  - apply (append_inj_l (String c ns)) in Heq. apply (append_inj_l "_") in Heq.
    apply (append_inj_l (String c' sub)) in Heq. apply (append_inj_l "_") in Heq. exact Heq.
Qed.

Lemma aurora_families_distinct :
  fqName infoSchemaAuroraCPUUsageDesc <> fqName infoSchemaAuroraReplicaLagDesc.
Proof.
  unfold infoSchemaAuroraCPUUsageDesc, infoSchemaAuroraReplicaLagDesc, NewDesc.
  cbn [fqName]. intros Heq. apply BuildFQName_inj in Heq; discriminate.
Qed.

(** C7: when the replica host status query returns the two rows
    ("i-1", 12.5, 3.0) and ("i-2", 40.0, 0.0), [Scrape] pushes four
    points: for each row, in order, a cpu usage gauge and a replica lag
    gauge, two metric families of different names, each point with the
    server id of its row as its one label value. *)
Theorem C7_aurora_two_rows fuel ctx db w rs row1 row2 :
  db_query db auroraHostStatQuery = inr rs ->
  rs_rows rs = [row1; row2] ->
  scan_cols3 PtrString PtrFloat64 PtrFloat64 row1 = inr ("i-1", float64_lit 12.5, float64_lit 3.0) ->
  scan_cols3 PtrString PtrFloat64 PtrFloat64 row2 = inr ("i-2", float64_lit 40.0, float64_lit 0.0) ->
  ctx_Err ctx (now w + 5) = None ->
  (2 < fuel)%nat ->
  exists w',
    Scrape Build_ScrapeAuroraHostStatus fuel ctx db w = (Val None, w') /\
    chan w' = chan w ++
      [ {| desc := infoSchemaAuroraCPUUsageDesc; valType := GaugeValue;
           value := float64_lit 12.5; labelValues := ["i-1"] |};
        {| desc := infoSchemaAuroraReplicaLagDesc; valType := GaugeValue;
           value := float64_lit 3.0; labelValues := ["i-1"] |};
        {| desc := infoSchemaAuroraCPUUsageDesc; valType := GaugeValue;
           value := float64_lit 40.0; labelValues := ["i-2"] |};
        {| desc := infoSchemaAuroraReplicaLagDesc; valType := GaugeValue;
           value := float64_lit 0.0; labelValues := ["i-2"] |} ] /\
    fqName infoSchemaAuroraCPUUsageDesc <> fqName infoSchemaAuroraReplicaLagDesc /\
    variableLabels infoSchemaAuroraCPUUsageDesc = ["server_id"] /\
    variableLabels infoSchemaAuroraReplicaLagDesc = ["server_id"].
Proof.
  intros Hq Hrows Hscan1 Hscan2 Hctx Hfuel.
  destruct (run_all_rows AuroraHostStatus fuel ctx db w rs Hq) as (w' & Hrun & Hchan).
  - rewrite Hrows. simpl. rewrite <- Hctx. f_equal. lia.
  - rewrite Hrows. simpl. unfold decodes, row_points, scan_points.
    rewrite Hscan1, Hscan2. reflexivity.
  - rewrite Hrows. exact Hfuel.
  - exists w'. split; [exact Hrun|]. split; [|auto using aurora_families_distinct].
    rewrite Hchan, Hrows. unfold points_of. simpl. unfold scan_points.
    rewrite Hscan1, Hscan2. reflexivity.
Qed.

(** C9: Name, Help and Version are functions of the receiver alone and
    touch no state; every call returns the same constant.  With the
    package constant informationSchema equal to info_schema, the names are
    info_schema.innodb_trx and info_schema.aurora_stats, which differ, and
    both versions are the binary64 nearest to 5.6. *)
Theorem C9_identity_methods :
  informationSchema = "info_schema" ->
  (forall s : ScrapeInnodbTrx,
     Name s = "info_schema.innodb_trx" /\
     Help s = "Collect metrics from information_schema.innodb_trx" /\
     Version s = float64_lit 5.6) /\
  (forall s : ScrapeAuroraHostStatus,
     Name s = "info_schema.aurora_stats" /\
     Help s = "Only works on aurora instance" /\
     Version s = float64_lit 5.6) /\
  (forall (s : ScrapeInnodbTrx) (a : ScrapeAuroraHostStatus), Name s <> Name a) /\
  (exists m, float64_lit 5.6 = S754_finite false m (-50) /\
             2 * Z.abs (5 * Z.pos m - 28 * 2 ^ 50) <= 5).
Proof.
  intros Hconst. repeat split.
  - simpl. unfold ScrapeInnodbTrx_Name. rewrite Hconst. reflexivity.
  - intros s a. simpl. unfold ScrapeInnodbTrx_Name, ScrapeAuroraHostStatus_Name.
    rewrite Hconst. discriminate.
  - exists 6305039478318694%positive. split; [reflexivity|]. vm_compute. discriminate.
Qed.

Lemma convertAssign_uint64_range src u :
  convertAssign PtrUint64 src = Some u -> is_uint64 u.
Proof. destruct src; simpl; try discriminate; apply ParseUint_range. Qed.

Lemma scan_cols3_uint64_range row a b c :
  scan_cols3 PtrUint64 PtrUint64 PtrUint64 row = inr (a, b, c) ->
  is_uint64 a /\ is_uint64 b /\ is_uint64 c.
Proof.
  unfold scan_cols3. destruct row as [|c1 [|c2 [|c3 [|c4 row]]]]; try discriminate.
  destruct (convertAssign PtrUint64 c1) as [v1|] eqn:E1; [|discriminate].
  destruct (convertAssign PtrUint64 c2) as [v2|] eqn:E2; [|discriminate].
  destruct (convertAssign PtrUint64 c3) as [v3|] eqn:E3; [|discriminate].
  intros [= <- <- <-].
  split; [|split]; eapply convertAssign_uint64_range; eassumption.
Qed.

Lemma loop_result_Forall (P : Metric -> Prop) pts ctx : forall rows n,
  (forall row ps, pts row = inr ps -> Forall P ps) ->
  Forall P (fst (loop_result pts ctx n rows)).
Proof.
  induction rows as [|row rows IH]; intros n Hpts; simpl; [constructor|].
  destruct (ctx_Err ctx (S n)); [constructor|].
  destruct (ctx_Err ctx (S (S n))); [constructor|].
  destruct (pts row) as [e|ps] eqn:Ep; [constructor|].
  specialize (IH (S (S n)) Hpts).
  destruct (loop_result pts ctx (S (S n)) rows) as [more f]. simpl in *.
  apply Forall_app. eauto.
Qed.

Lemma trx_row_points_nonneg row ps :
  row_points InnodbTrx row = inr ps ->
  Forall (fun m => float64_nonneg (value m) = true) ps.
Proof.
  unfold row_points, scan_points.
  destruct (scan_cols3 PtrUint64 PtrUint64 PtrUint64 row) as [e|[[a b] c]] eqn:Es; [discriminate|].
  intros [= <-]. destruct (scan_cols3_uint64_range _ _ _ _ Es) as ([Ha _] & [Hb _] & [Hc _]).
  repeat constructor; simpl; auto using float64_of_uint64_nonneg.
Qed.

(** C10: every metric the innodb_trx scraper pushes has a value that
    is at least zero, each count being a uint64 when it is converted; and a
    row with a negative integer in any column does not decode, so nothing
    is pushed for it. *)
Theorem C10_trx_values_nonneg fuel ctx db w :
  (length (result_rows db innodbTrxQuery) < fuel)%nat ->
  (exists res w' pts,
     Scrape Build_ScrapeInnodbTrx fuel ctx db w = (Val res, w') /\
     chan w' = chan w ++ pts /\
     Forall (fun m => float64_nonneg (value m) = true) pts) /\
  (forall before p after,
     decodes InnodbTrx (before ++ VInt64 (Z.neg p) :: after) = false).
Proof.
  intros Hfuel. split.
  - destruct (Scrape_run InnodbTrx fuel ctx db w Hfuel) as (w' & Hrun & Hchan & _).
    do 3 eexists. split; [exact Hrun|]. split; [exact Hchan|].
    unfold call_result. destruct (ctx_Err ctx (S (now w))); [constructor|].
    destruct (db_query db (query_of InnodbTrx)) as [e|rs]; [constructor|].
    pose proof (loop_result_Forall _ (row_points InnodbTrx) ctx (rs_rows rs) (S (now w))
                  trx_row_points_nonneg) as Hall.
    destruct (loop_result (row_points InnodbTrx) ctx (S (now w)) (rs_rows rs)). exact Hall.
  - intros before p after. unfold decodes, row_points, scan_points, scan_cols3.
    destruct before as [|c1 [|c2 [|c3 [|c4 before]]]]; cbn [app].
    + destruct after as [|c2 [|c3 [|c4 after]]]; reflexivity.
    + destruct after as [|c3 [|c4 after]]; try reflexivity.
      destruct (convertAssign PtrUint64 c1); reflexivity.
    + destruct after as [|c4 after]; try reflexivity.
      destruct (convertAssign PtrUint64 c1); [|reflexivity].
      destruct (convertAssign PtrUint64 c2); reflexivity.
    + reflexivity.
    + reflexivity.
Qed.
End Runs.

(** ** The theorems at the example inputs *)



Lemma C3_witness :
  @Scrape_of example_package example_strconv AuroraHostStatus 1 Background unreachable_db later_world
    = (Val (Some (driver_error "dial tcp: connection refused")), tick later_world) /\
  chan (tick later_world) = chan later_world /\
  cursors (tick later_world) = cursors later_world.
Proof.
  apply (@C3_query_fails example_package example_strconv
           AuroraHostStatus 1 Background unreachable_db later_world).
  reflexivity.
Defined.



Lemma C5_witness :
  exists r,
    cursors (snd (@Scrape_of example_package example_strconv InnodbTrx 5 Background
                    negative_count_db later_world))
      = cursors later_world ++ [r] /\
    closed r = true.
Proof.
  apply (@C5_cursor_closed example_package example_strconv
           InnodbTrx 5 Background negative_count_db later_world
           {| rs_rows := [ [VInt64 1; VInt64 1; VInt64 0];
                           [VInt64 4; VInt64 0; VInt64 0];
                           [VInt64 2; VInt64 (-1); VInt64 0];
                           [VInt64 9; VInt64 9; VInt64 9] ];
              rs_end := None |}
           (Val (Some (sql_errScanColumn 1))));
    [reflexivity | reflexivity | vm_compute; reflexivity | discriminate].
Defined.

Lemma C6_witness :
  exists w',
    @Scrape _ (@ScrapeInnodbTrx_Scraper example_package example_strconv)
      Build_ScrapeInnodbTrx 2 Background one_row_db empty_world = (Val None, w') /\
    chan w' = chan empty_world ++
      [ {| desc := @infoSchemaTrxCountDesc example_package; valType := GaugeValue;
           value := float64_lit 5; labelValues := ["5"] |};
        {| desc := @infoSchemaTrxCountDesc example_package; valType := GaugeValue;
           value := float64_lit 2; labelValues := ["30"] |};
        {| desc := @infoSchemaTrxCountDesc example_package; valType := GaugeValue;
           value := float64_lit 0; labelValues := ["60"] |} ].
Proof.
  apply (proj1 (@C6_trx_points_in_order example_package example_strconv)
           2%nat Background one_row_db empty_world
           {| rs_rows := [ [VBytes "5"; VBytes "2"; VBytes "0"] ]; rs_end := None |}
           [VBytes "5"; VBytes "2"; VBytes "0"]);
    [reflexivity | reflexivity | reflexivity | reflexivity | lia].
Defined.

Lemma C7_witness :
  exists w',
    @Scrape _ (@ScrapeAuroraHostStatus_Scraper example_package example_strconv)
      Build_ScrapeAuroraHostStatus 3 Background example_db empty_world = (Val None, w') /\
    chan w' = chan empty_world ++
      [ {| desc := @infoSchemaAuroraCPUUsageDesc example_package; valType := GaugeValue;
           value := float64_lit 12.5; labelValues := ["i-1"] |};
        {| desc := @infoSchemaAuroraReplicaLagDesc example_package; valType := GaugeValue;
           value := float64_lit 3.0; labelValues := ["i-1"] |};
        {| desc := @infoSchemaAuroraCPUUsageDesc example_package; valType := GaugeValue;
           value := float64_lit 40.0; labelValues := ["i-2"] |};
        {| desc := @infoSchemaAuroraReplicaLagDesc example_package; valType := GaugeValue;
           value := float64_lit 0.0; labelValues := ["i-2"] |} ] /\
    fqName (@infoSchemaAuroraCPUUsageDesc example_package)
      <> fqName (@infoSchemaAuroraReplicaLagDesc example_package) /\
    variableLabels (@infoSchemaAuroraCPUUsageDesc example_package) = ["server_id"] /\
    variableLabels (@infoSchemaAuroraReplicaLagDesc example_package) = ["server_id"].
Proof.
  apply (@C7_aurora_two_rows example_package example_strconv
           3%nat Background example_db empty_world aurora_rows
           [VString "i-1"; VFloat64 (float64_lit 12.5); VFloat64 (float64_lit 3.0)]
           [VBytes "i-2"; VFloat64 (float64_lit 40.0); VFloat64 (float64_lit 0.0)]);
    [reflexivity | reflexivity | reflexivity | reflexivity | reflexivity | lia].
Defined.


Lemma C9_witness :
  (forall s : ScrapeInnodbTrx,
     @Name _ (@ScrapeInnodbTrx_Scraper example_package example_strconv) s
       = "info_schema.innodb_trx" /\
     @Help _ (@ScrapeInnodbTrx_Scraper example_package example_strconv) s
       = "Collect metrics from information_schema.innodb_trx" /\
     @Version _ (@ScrapeInnodbTrx_Scraper example_package example_strconv) s
       = float64_lit 5.6) /\
  (forall s : ScrapeAuroraHostStatus,
     @Name _ (@ScrapeAuroraHostStatus_Scraper example_package example_strconv) s
       = "info_schema.aurora_stats" /\
     @Help _ (@ScrapeAuroraHostStatus_Scraper example_package example_strconv) s
       = "Only works on aurora instance" /\
     @Version _ (@ScrapeAuroraHostStatus_Scraper example_package example_strconv) s
       = float64_lit 5.6) /\
  (forall (s : ScrapeInnodbTrx) (a : ScrapeAuroraHostStatus),
     @Name _ (@ScrapeInnodbTrx_Scraper example_package example_strconv) s
       <> @Name _ (@ScrapeAuroraHostStatus_Scraper example_package example_strconv) a) /\
  (exists m, float64_lit 5.6 = S754_finite false m (-50) /\
             2 * Z.abs (5 * Z.pos m - 28 * 2 ^ 50) <= 5).
Proof.
  apply (@C9_identity_methods example_package example_strconv). reflexivity.
Defined.

Lemma C10_witness :
  (exists res w' pts,
     @Scrape _ (@ScrapeInnodbTrx_Scraper example_package example_strconv)
       Build_ScrapeInnodbTrx 5 Background negative_count_db empty_world = (Val res, w') /\
     chan w' = chan empty_world ++ pts /\
     Forall (fun m => float64_nonneg (value m) = true) pts) /\
  (forall before p after,
     @decodes example_package example_strconv InnodbTrx
       (before ++ VInt64 (Z.neg p) :: after) = false).
Proof.
  apply (@C10_trx_values_nonneg example_package example_strconv
           5%nat Background negative_count_db empty_world).
  simpl. lia.
Defined.

(** * Further properties of the two scrapers *)

(** ** Counts as integers and as decimal text *)

Lemma uint_value_ge d : forall acc, 0 <= acc -> acc <= uint_value d acc.
Proof.
  induction d; intros acc Hacc; simpl; try lia;
    match goal with |- _ <= uint_value _ ?a => specialize (IHd a ltac:(lia)); lia end.
Qed.

Lemma parse_digits_string_of_uint d : forall acc,
  0 <= acc <= uint64_max ->
  parse_digits (NilEmpty.string_of_uint d) acc =
    if uint_value d acc <=? uint64_max then Some (uint_value d acc) else None.
Proof.
  induction d; intros acc Hacc; cbn [NilEmpty.string_of_uint parse_digits uint_value].
  1: destruct (Z.leb_spec acc uint64_max); [reflexivity|lia].
  all: match goal with |- context [digit_value ?c] =>
         let v := eval vm_compute in (digit_value c) in
         change (digit_value c) with v
       end; cbv beta iota zeta.
  all: match goal with |- context [uint_value ?d' ?a] =>
         pose proof (uint_value_ge d' a ltac:(lia)) as Hge;
         destruct (Z.leb_spec a uint64_max);
         [ apply IHd; lia
         | destruct (Z.leb_spec (uint_value d' a) uint64_max); [lia|reflexivity] ]
       end.
Qed.

Lemma uint_value_of_uint_acc d : forall acc,
  uint_value d (Z.pos acc) = Z.pos (Pos.of_uint_acc d acc).
Proof.
  induction d; intros acc; simpl; try reflexivity;
    rewrite <- IHd; f_equal; lia.
Qed.

Lemma uint_value_of_uint d : uint_value d 0 = Z.of_N (Pos.of_uint d).
Proof.
  destruct d; cbn [uint_value Pos.of_uint Z.of_N]; try reflexivity;
    try apply uint_value_of_uint_acc.
  induction d; cbn [uint_value Pos.of_uint Z.of_N]; try reflexivity; try exact IHd;
    apply uint_value_of_uint_acc.
Qed.

Lemma uint_value_to_uint p : uint_value (Pos.to_uint p) 0 = Z.pos p.
Proof. rewrite uint_value_of_uint, Unsigned.of_to. reflexivity. Qed.

(** Formatting then parsing: an integer in the range of uint64 comes
    back, any other is an error. *)
Lemma ParseUint_FormatInt i :
  ParseUint (FormatInt i) = if (0 <=? i) && (i <=? uint64_max) then Some i else None.
Proof.
  destruct i as [|p|p]; [reflexivity| |reflexivity].
  unfold FormatInt, ParseUint. cbn [Z.to_int NilZero.string_of_int NilZero.string_of_uint].
  pose proof (Unsigned.to_uint_nonnil p) as Hnil.
  pose proof (parse_digits_string_of_uint (Pos.to_uint p) 0 ltac:(unfold uint64_max; lia)) as Hp.
  rewrite uint_value_to_uint in Hp.
  destruct (Pos.to_uint p) eqn:E; [congruence|..]; cbn [NilEmpty.string_of_uint] in *; exact Hp.
Qed.

(** ** Whole runs *)

Section Calls.
Context `{Package} `{Strconv}.





















(** X6: the innodb_trx scraper decodes a count the same way whether the
    driver delivers it as an int64 or as its decimal text (bytes or
    string): every count in the range of uint64 comes back as itself. *)
Theorem trx_counts_as_int_or_text a b c :
  is_uint64 a -> is_uint64 b -> is_uint64 c ->
  row_points InnodbTrx [VInt64 a; VInt64 b; VInt64 c] = inr (trx_points (a, b, c)) /\
  row_points InnodbTrx [VBytes (FormatInt a); VBytes (FormatInt b); VBytes (FormatInt c)]
    = inr (trx_points (a, b, c)) /\
  row_points InnodbTrx [VString (FormatInt a); VString (FormatInt b); VString (FormatInt c)]
    = inr (trx_points (a, b, c)).
Proof.
  intros Ha Hb Hc.
  assert (Hp : forall i, is_uint64 i -> ParseUint (FormatInt i) = Some i).
  { intros i [Hi0 Hi1]. rewrite ParseUint_FormatInt.
    destruct (Z.leb_spec 0 i), (Z.leb_spec i uint64_max); try lia. reflexivity. }
  unfold row_points, scan_points, scan_cols3, convertAssign, asString.
  rewrite !Hp by assumption. auto.
Qed.


Lemma innodb_trx_suffix (p : string) :
  (p ++ ".innodb_trx")%string <> "info_schema.aurora_stats".
Proof.
  intros Heq.
  do 24 (destruct p as [|? p]; simpl in Heq; [discriminate Heq | injection Heq as _ Heq]).
  destruct p; discriminate Heq.
Qed.

(** X10: the names of the two scrapers differ, whatever the value of the
    package constant informationSchema. *)
Theorem Name_unique (s : ScrapeInnodbTrx) (a : ScrapeAuroraHostStatus) :
  Name s <> Name a.
Proof. apply innodb_trx_suffix. Qed.
End Calls.

(** ** The further properties at the example inputs *)






Lemma trx_counts_as_int_or_text_witness :
  @row_points example_package example_strconv InnodbTrx
    [VInt64 18446744073709551615; VInt64 2; VInt64 0]
    = inr (@trx_points example_package (18446744073709551615, 2, 0)) /\
  @row_points example_package example_strconv InnodbTrx
    [VBytes (FormatInt 18446744073709551615); VBytes (FormatInt 2); VBytes (FormatInt 0)]
    = inr (@trx_points example_package (18446744073709551615, 2, 0)) /\
  @row_points example_package example_strconv InnodbTrx
    [VString (FormatInt 18446744073709551615); VString (FormatInt 2); VString (FormatInt 0)]
    = inr (@trx_points example_package (18446744073709551615, 2, 0)).
Proof.
  apply (@trx_counts_as_int_or_text example_package example_strconv
           18446744073709551615 2 0);
    unfold is_uint64, uint64_max; lia.
Defined.



